(** * Optimint RPC client and DA registry: a shallow embedding

    The development follows the two Go sources of the repository:
    - [da/registry/registry.go]: the name-keyed registry of data
      availability layer clients ([Module Registry]);
    - the RPC client ([Module Client]): transaction broadcast in its three
      modes, event subscriptions with resubscription, and the sort and
      paginate logic of [TxSearch].

    Go's [int] and [time.Duration] are 64-bit two's complement integers and
    are modelled as [Z] with the wrap-around written out ([Module GoInt]).
    A Go function that can panic returns an [Outcome]; a Go [error] is a
    message with an optional wrapped cause. *)

From Stdlib Require Import ZArith Lia.
From Stdlib.Strings Require Import Byte.
From stdpp Require Import base list strings gmap sorting pretty.

Open Scope Z_scope.

(** ** Go integers *)

Module GoInt.

Definition MinInt64 : Z := - 2 ^ 63.
Definition MaxInt64 : Z := 2 ^ 63 - 1.

Definition is_int (z : Z) : Prop := MinInt64 <= z <= MaxInt64.

(** Two's complement wrap-around of a mathematical result. *)
Definition wrap (z : Z) : Z := (z + 2 ^ 63) mod 2 ^ 64 - 2 ^ 63.

Definition add (a b : Z) : Z := wrap (a + b).
Definition sub (a b : Z) : Z := wrap (a - b).
Definition mul (a b : Z) : Z := wrap (a * b).

(** Go's [/] truncates towards zero; the divisor is non-zero wherever the
    client divides. *)
Definition quot (a b : Z) : Z := wrap (Z.quot a b).

(** [uint(a)]: conversion to the unsigned type of the same width. *)
Definition to_uint (a : Z) : Z := a mod 2 ^ 64.

(** [a << n] for an unsigned count [n]: counts of 64 and more give 0. *)
Definition shl (a n : Z) : Z :=
  if 64 <=? n then 0 else wrap (Z.shiftl a n).

End GoInt.

(** ** Errors and panics *)

(** [errors.New msg] and [fmt.Errorf] with a [%w] verb: the message of the
    latter is the prefix followed by the message of the wrapped cause. *)
Inductive error : Type :=
| errors_New (msg : string)
| fmt_Errorf_w (prefix : string) (cause : error).

Fixpoint Error (e : error) : string :=
  match e with
  | errors_New msg => msg
  | fmt_Errorf_w prefix cause => prefix +:+ Error cause
  end.

#[global] Instance error_eq_dec : EqDecision error.
Proof. solve_decision. Defined.

(** The result of running a Go function: it returns, or it panics with a
    message. *)
Inductive Outcome (A : Type) : Type :=
| Returns (a : A)
| Panics (msg : string).
Arguments Returns {A} a.
Arguments Panics {A} msg.

#[global] Instance Outcome_ret : MRet Outcome := fun _ a => Returns a.
#[global] Instance Outcome_bind : MBind Outcome := fun _ _ k m =>
  match m with
  | Returns a => k a
  | Panics msg => Panics msg
  end.

(** ** The DA client registry ([da/registry/registry.go]) *)

Module Registry.

(** The two implementations of [da.DataAvailabilityLayerClient] that the
    registry can build, each as a pointer to a zero-valued struct. *)
Inductive DataAvailabilityLayerClient : Type :=
| MockDataAvailabilityLayerClient
| GrpcDataAvailabilityLayerClient.

(** The package-level map from names to constructors. *)
Definition clients : gmap string (unit -> DataAvailabilityLayerClient) :=
  <["mock" := fun _ => MockDataAvailabilityLayerClient]>
    (<["grpc" := fun _ => GrpcDataAvailabilityLayerClient]> ∅).

(** [clients[name]()]: indexing the map with a missing key gives the nil
    function, and calling it is a run-time panic. *)
Definition GetClient (name : string) : Outcome DataAvailabilityLayerClient :=
  match clients !! name with
  | Some f => Returns (f tt)
  | None => Panics "invalid memory address or nil pointer dereference"
  end.

End Registry.

(** ** The RPC client *)

Module Client.

Import GoInt.

(** *** Data model *)

Definition bytes : Type := list byte.

(** [types.Tx]: an opaque byte sequence. *)
Definition Tx : Type := bytes.

(** A parsed pubsub query, identified by its text ([q.String()]). *)
Definition Query : Type := string.

Definition CodeTypeOK : Z := 0.

Record ResponseCheckTx : Type := {
  CheckTx_Code : Z;
  CheckTx_Data : bytes;
  CheckTx_Log : string;
  CheckTx_Info : string;
  CheckTx_GasWanted : Z;
  CheckTx_GasUsed : Z;
  CheckTx_Codespace : string }.

Record ResponseDeliverTx : Type := {
  DeliverTx_Code : Z;
  DeliverTx_Data : bytes;
  DeliverTx_Log : string;
  DeliverTx_Info : string;
  DeliverTx_GasWanted : Z;
  DeliverTx_GasUsed : Z;
  DeliverTx_Codespace : string }.

(** [abci.ResponseDeliverTx{}]. *)
Definition ResponseDeliverTx_zero : ResponseDeliverTx :=
  {| DeliverTx_Code := 0; DeliverTx_Data := []; DeliverTx_Log := "";
     DeliverTx_Info := ""; DeliverTx_GasWanted := 0; DeliverTx_GasUsed := 0;
     DeliverTx_Codespace := "" |}.

(** [abci.TxResult], the entries of the transaction index; it is also
    the payload of [types.EventDataTx]. *)
Record TxResult : Type := {
  Height : Z;
  Index : Z;
  TxBytes : Tx;
  Result : ResponseDeliverTx }.

Record merkle_Proof : Type := {
  Proof_Total : Z;
  Proof_Index : Z;
  Proof_LeafHash : bytes;
  Proof_Aunts : list bytes }.

Record TxProof : Type := {
  TxProof_RootHash : bytes;
  TxProof_Data : Tx;
  TxProof_Proof : merkle_Proof }.

(** [var proof types.TxProof]: the zero value. *)
Definition TxProof_zero : TxProof :=
  {| TxProof_RootHash := []; TxProof_Data := [];
     TxProof_Proof := {| Proof_Total := 0; Proof_Index := 0;
                         Proof_LeafHash := []; Proof_Aunts := [] |} |}.

Record ResultTx : Type := {
  ResultTx_Hash : bytes;
  ResultTx_Height : Z;
  ResultTx_Index : Z;
  ResultTx_TxResult : ResponseDeliverTx;
  ResultTx_Tx : Tx;
  ResultTx_Proof : TxProof }.

Record ResultTxSearch : Type := {
  Txs : list ResultTx;
  TotalCount : Z }.

Record ResultBroadcastTx : Type := {
  BroadcastTx_Code : Z;
  BroadcastTx_Data : bytes;
  BroadcastTx_Log : string;
  BroadcastTx_Codespace : string;
  BroadcastTx_Hash : bytes }.

Record ResultBroadcastTxCommit : Type := {
  Commit_CheckTx : ResponseCheckTx;
  Commit_DeliverTx : ResponseDeliverTx;
  Commit_Hash : bytes;
  Commit_Height : Z }.

(** The payload of a bus message: [types.EventDataTx] or an event of
    another type. *)
Inductive TMEventData : Type :=
| EventDataTx (r : TxResult)
| EventDataOther (name : string).

Record Message : Type := {
  msg_Data : TMEventData;
  msg_Events : list (string * list string) }.

Record ResultEvent : Type := {
  Event_Query : string;
  Event_Data : TMEventData;
  Event_Events : list (string * list string) }.

(** [tmpubsub.ErrUnsubscribed] *)
Definition ErrUnsubscribed : error := errors_New "client unsubscribed".

(** [time.Millisecond], in nanoseconds. *)
Definition Millisecond : Z := 1000000.

(** *** Library functions the client calls

    They belong to Tendermint, to the mempool package and to Go's [sort];
    the client only relies on their interface. *)

Class TendermintLib : Type := {
  (** [tx.Hash()] *)
  Tx_Hash : Tx -> bytes;
  (** [mempool.TxKey(tx)] *)
  mempool_TxKey : Tx -> bytes;
  (** [types.EventQueryTxFor(tx)] *)
  EventQueryTxFor : Tx -> Query;
  (** [tmquery.New(s)] *)
  tmquery_New : string -> error + Query }.

(** What [sort.Slice] asks of its [less] argument. *)
Record StrictWeakOrder {A : Type} (less : A -> A -> bool) : Prop := {
  less_irrefl : forall a, less a a = false;
  less_trans : forall a b c, less a b = true -> less b c = true -> less a c = true;
  less_neg_trans : forall a b c, less a b = false -> less b c = false -> less a c = false }.

(** [sort.Slice(results, less)]: the slice is permuted in place so that
    no element is [less] than one before it; the order of elements that
    compare equal is not specified. *)
Class SortLib : Type := {
  sort_Slice : (TxResult -> TxResult -> bool) -> list TxResult -> list TxResult;
  sort_Slice_Permutation : forall less l, sort_Slice less l ≡ₚ l;
  sort_Slice_Sorted : forall less l,
    StrictWeakOrder less ->
    StronglySorted (fun a b => less b a = false) (sort_Slice less l) }.

Definition defaultPerPage : Z := 30.
Definition maxPerPage : Z := 100.

(** *** Pagination helpers *)

Definition validatePerPage (perPagePtr : option Z) : Z :=
  match perPagePtr with
  | None => defaultPerPage
  | Some perPage =>
      if perPage <? 1 then defaultPerPage
      else if perPage >? maxPerPage then maxPerPage
      else perPage
  end.

(** The page count computed inside [validatePage]:
    [pages := ((totalCount - 1) / perPage) + 1], raised to 1 when 0. *)
Definition pageCount (perPage totalCount : Z) : Z :=
  let pages := add (quot (sub totalCount 1) perPage) 1 in
  if pages =? 0 then 1 else pages.

Definition validatePage (pagePtr : option Z) (perPage totalCount : Z)
  : Outcome (Z * option error) :=
  if perPage <? 1 then
    Panics ("zero or negative perPage: " +:+ pretty perPage)
  else
    match pagePtr with
    | None => Returns (1, None)
    | Some page =>
        let pages := pageCount perPage totalCount in
        if (page <=? 0) || (page >? pages) then
          Returns (1, Some (errors_New
            ("page should be within [1, " +:+ pretty pages +:+
             "] range, given " +:+ pretty page)))
        else Returns (page, None)
    end.

Definition validateSkipCount (page perPage : Z) : Z :=
  let skipCount := mul (sub page 1) perPage in
  if skipCount <? 0 then 0 else skipCount.

(** [tmmath.MinInt]. *)
Definition MinInt (a b : Z) : Z := if a <? b then a else b.

(** *** The node behind the client

    The mempool, the peer-to-peer layer, the event bus and the transaction
    index are collaborators of the client. A [Node] fixes the answers they
    give during one call; the calls that change their state are recorded
    in a trace ([Call]). Contexts, and the cancel function of the
    subscription timeout, are left out. *)

(** What the caller of [BroadcastTxCommit] observes first on a
    subscription: an event, a cancellation (with [sub.Err()]), or nothing
    before the commit timeout. *)
Inductive SubscriptionFate : Type :=
| Delivers (msg : Message)
| Cancels (err : option error)
| Silent.

Record Subscription : Type := {
  sub_id : Z;
  sub_fate : SubscriptionFate }.

Record Node : Type := {
  MaxSubscriptionClients : Z;
  MaxSubscriptionsPerClient : Z;
  EventBus_NumClients : Z;
  EventBus_NumClientSubscriptions : string -> Z;
  EventBus_Subscribe : string -> Query -> list Z -> error + Subscription;
  EventBus_SubscribeUnbuffered : string -> Query -> error + Subscription;
  EventBus_Unsubscribe : string -> Query -> option error;
  (** [Mempool.CheckTx]: an error, or the response handed to the callback *)
  Mempool_CheckTx : Tx -> error + ResponseCheckTx;
  P2P_GossipTx : Tx -> option error;
  TxIndexer_Search : Query -> error + list TxResult }.

Inductive Call : Type :=
| Call_Subscribe (subscriber : string) (q : Query) (outCapacity : list Z)
| Call_SubscribeUnbuffered (subscriber : string) (q : Query)
| Call_Unsubscribe (subscriber : string) (q : Query)
| Call_CheckTx (tx : Tx)
| Call_RemoveTxByKey (key : bytes) (removeFromCache : bool)
| Call_GossipTx (tx : Tx)
| Call_LoggerError (msg : string) (err : option error)
| Call_Sleep (d : Z)
| Call_Send (ev : ResultEvent)
| Call_Go_eventsRoutine (sub : Subscription) (subscriber : string)
    (q : Query) (outCap : Z).

(** A computation that calls the collaborators: the calls made, in
    order, and the value returned. *)
Record Eff (A : Type) : Type := mkEff {
  trace : list Call;
  value : A }.
Arguments mkEff {A} trace value.
Arguments trace {A} e.
Arguments value {A} e.

#[global] Instance Eff_ret : MRet Eff := fun _ a => mkEff [] a.
#[global] Instance Eff_bind : MBind Eff := fun _ _ k m =>
  let r := k (value m) in mkEff (trace m ++ trace r) (value r).

Definition perform (c : Call) : Eff unit := mkEff [c] tt.

(** [defer d] around [body]: [d] runs when [body] is left. *)
Definition defer {A} (d : Eff unit) (body : Eff A) : Eff A :=
  a ← body; d;; mret a.

Definition bus_Subscribe (node : Node) (subscriber : string) (q : Query)
    (outCapacity : list Z) : Eff (error + Subscription) :=
  perform (Call_Subscribe subscriber q outCapacity);;
  mret (EventBus_Subscribe node subscriber q outCapacity).

Definition bus_SubscribeUnbuffered (node : Node) (subscriber : string)
    (q : Query) : Eff (error + Subscription) :=
  perform (Call_SubscribeUnbuffered subscriber q);;
  mret (EventBus_SubscribeUnbuffered node subscriber q).

Definition bus_Unsubscribe (node : Node) (subscriber : string) (q : Query)
  : Eff (option error) :=
  perform (Call_Unsubscribe subscriber q);;
  mret (EventBus_Unsubscribe node subscriber q).

Definition mempool_CheckTx (node : Node) (tx : Tx)
  : Eff (error + ResponseCheckTx) :=
  perform (Call_CheckTx tx);; mret (Mempool_CheckTx node tx).

Definition p2p_GossipTx (node : Node) (tx : Tx) : Eff (option error) :=
  perform (Call_GossipTx tx);; mret (P2P_GossipTx node tx).

(** *** TxSearch *)

Definition less_desc (a b : TxResult) : bool :=
  if Height a =? Height b then Index a >? Index b
  else Height a >? Height b.

Definition less_asc (a b : TxResult) : bool :=
  if Height a =? Height b then Index a <? Index b
  else Height a <? Height b.

(** [len(results)] *)
Definition len {A} (l : list A) : Z := Z.of_nat (length l).

(** [results[i]]: out of range is a run-time panic. *)
Definition index {A} (l : list A) (i : Z) : Outcome A :=
  if i <? 0 then Panics "index out of range"
  else match l !! Z.to_nat i with
       | Some a => Returns a
       | None => Panics "index out of range"
       end.

Section WithLibs.
Context `{TendermintLib} `{SortLib}.

(** The body of the loop of [TxSearch]; the commented-out block that
    would fill [proof] when [prove] is set leaves it at its zero value. *)
Definition toResultTx (prove : bool) (r : TxResult) : ResultTx :=
  let proof := TxProof_zero in
  {| ResultTx_Hash := Tx_Hash (TxBytes r);
     ResultTx_Height := Height r;
     ResultTx_Index := Index r;
     ResultTx_TxResult := Result r;
     ResultTx_Tx := TxBytes r;
     ResultTx_Proof := proof |}.

(** [for i := skipCount; i < skipCount+pageSize; i++]: one round for
    each of the [n] indices from [i] up to the bound. *)
Fixpoint collectPage (prove : bool) (results : list TxResult)
    (i : Z) (n : nat) (apiResults : list ResultTx) : Outcome (list ResultTx) :=
  match n with
  | O => Returns apiResults
  | S n' =>
      r ← index results i;
      collectPage prove results (add i 1) n' (apiResults ++ [toResultTx prove r])
  end.

(** The second half of [TxSearch] ("paginate results"), run on the
    sorted hits. *)
Definition paginateResults (prove : bool) (pagePtr perPagePtr : option Z)
    (results : list TxResult)
  : Outcome (option ResultTxSearch * option error) :=
  let totalCount := len results in
  let perPage := validatePerPage perPagePtr in
  '(page, err) ← validatePage pagePtr perPage totalCount;
  match err with
  | Some err => Returns (None, Some err)
  | None =>
      let skipCount := validateSkipCount page perPage in
      let pageSize := MinInt perPage (sub totalCount skipCount) in
      (* make([]*ctypes.ResultTx, 0, pageSize) *)
      if pageSize <? 0 then Panics "makeslice: cap out of range"
      else
        apiResults ← collectPage prove results skipCount
                       (Z.to_nat (add skipCount pageSize - skipCount)) [];
        Returns (Some {| Txs := apiResults; TotalCount := totalCount |}, None)
  end.

Definition TxSearch (node : Node) (query : string) (prove : bool)
    (pagePtr perPagePtr : option Z) (orderBy : string)
  : Outcome (option ResultTxSearch * option error) :=
  match tmquery_New query with
  | inl err => Returns (None, Some err)
  | inr q =>
      match TxIndexer_Search node q with
      | inl err => Returns (None, Some err)
      | inr results =>
          (* sort results (must be done before pagination) *)
          if String.eqb orderBy "desc" then
            paginateResults prove pagePtr perPagePtr
              (sort_Slice less_desc results)
          else if String.eqb orderBy "asc" || String.eqb orderBy "" then
            paginateResults prove pagePtr perPagePtr
              (sort_Slice less_asc results)
          else
            Returns (None, Some (errors_New
              "expected order_by to be either `asc` or `desc` or empty"))
      end
  end.

(** *** Broadcasting transactions *)

(** The deferred closure of [BroadcastTxCommit]. *)
Definition unsubscribe_deferred (node : Node) (subscriber : string)
    (q : Query) : Eff unit :=
  r ← bus_Unsubscribe node subscriber q;
  match r with
  | Some err => perform (Call_LoggerError "Error unsubscribing from eventBus" (Some err))
  | None => mret tt
  end.

Definition BroadcastTxCommit (node : Node) (tx : Tx)
  : Eff (Outcome (option ResultBroadcastTxCommit * option error)) :=
  let subscriber := "" in
  if EventBus_NumClients node >=? MaxSubscriptionClients node then
    mret (Returns (None, Some (errors_New
      ("max_subscription_clients " +:+
       pretty (MaxSubscriptionClients node) +:+ " reached"))))
  else if EventBus_NumClientSubscriptions node subscriber
            >=? MaxSubscriptionsPerClient node then
    mret (Returns (None, Some (errors_New
      ("max_subscriptions_per_client " +:+
       pretty (MaxSubscriptionsPerClient node) +:+ " reached"))))
  else
    (* Subscribe to tx being committed in block. *)
    let q := EventQueryTxFor tx in
    r ← bus_Subscribe node subscriber q [];
    match r with
    | inl err =>
        let err := fmt_Errorf_w "failed to subscribe to tx: " err in
        perform (Call_LoggerError "Error on broadcast_tx_commit" (Some err));;
        mret (Returns (None, Some err))
    | inr deliverTxSub =>
        defer (unsubscribe_deferred node subscriber q) (
          (* add to mempool and wait for CheckTx result *)
          r ← mempool_CheckTx node tx;
          match r with
          | inl err =>
              perform (Call_LoggerError "Error on broadcastTxCommit" (Some err));;
              mret (Returns (None, Some (errors_New
                ("error on broadcastTxCommit: " +:+ Error err))))
          | inr checkTxRes =>
              if negb (CheckTx_Code checkTxRes =? CodeTypeOK) then
                mret (Returns (Some {|
                  Commit_CheckTx := checkTxRes;
                  Commit_DeliverTx := ResponseDeliverTx_zero;
                  Commit_Hash := Tx_Hash tx;
                  Commit_Height := 0 |}, None))
              else
                (* broadcast tx *)
                g ← p2p_GossipTx node tx;
                match g with
                | Some err =>
                    mret (Returns (None, Some (fmt_Errorf_w
                      "tx added to local mempool but failure to broadcast: " err)))
                | None =>
                    (* Wait for the tx to be included in a block or timeout. *)
                    match sub_fate deliverTxSub with
                    | Delivers msg =>
                        match msg_Data msg with
                        | EventDataTx deliverTxRes =>
                            mret (Returns (Some {|
                              Commit_CheckTx := checkTxRes;
                              Commit_DeliverTx := Result deliverTxRes;
                              Commit_Hash := Tx_Hash tx;
                              Commit_Height := Height deliverTxRes |}, None))
                        | EventDataOther _ =>
                            mret (Panics "interface conversion: not types.EventDataTx")
                        end
                    | Cancels subErr =>
                        let reason :=
                          match subErr with
                          | None => "Tendermint exited"
                          | Some e => Error e
                          end in
                        let err := errors_New
                          ("deliverTxSub was cancelled (reason: " +:+ reason +:+ ")") in
                        perform (Call_LoggerError "Error on broadcastTxCommit" (Some err));;
                        mret (Returns (Some {|
                          Commit_CheckTx := checkTxRes;
                          Commit_DeliverTx := ResponseDeliverTx_zero;
                          Commit_Hash := Tx_Hash tx;
                          Commit_Height := 0 |}, Some err))
                    | Silent =>
                        let err := errors_New
                          "timed out waiting for tx to be included in a block" in
                        perform (Call_LoggerError "Error on broadcastTxCommit" (Some err));;
                        mret (Returns (Some {|
                          Commit_CheckTx := checkTxRes;
                          Commit_DeliverTx := ResponseDeliverTx_zero;
                          Commit_Hash := Tx_Hash tx;
                          Commit_Height := 0 |}, Some err))
                    end
                end
          end)
    end.

Definition BroadcastTxAsync (node : Node) (tx : Tx)
  : Eff (option ResultBroadcastTx * option error) :=
  r ← mempool_CheckTx node tx;
  match r with
  | inl err => mret (None, Some err)
  | inr _ =>
      (* gossipTx optimistically *)
      g ← p2p_GossipTx node tx;
      match g with
      | Some err =>
          mret (None, Some (fmt_Errorf_w
            "tx added to local mempool but failed to gossip: " err))
      | None =>
          mret (Some {| BroadcastTx_Code := 0; BroadcastTx_Data := [];
                        BroadcastTx_Log := ""; BroadcastTx_Codespace := "";
                        BroadcastTx_Hash := Tx_Hash tx |}, None)
      end
  end.

Definition BroadcastTxSync (node : Node) (tx : Tx)
  : Eff (option ResultBroadcastTx * option error) :=
  res ← mempool_CheckTx node tx;
  match res with
  | inl err => mret (None, Some err)
  | inr r =>
      let result :=
        (Some {| BroadcastTx_Code := CheckTx_Code r;
                 BroadcastTx_Data := CheckTx_Data r;
                 BroadcastTx_Log := CheckTx_Log r;
                 BroadcastTx_Codespace := CheckTx_Codespace r;
                 BroadcastTx_Hash := Tx_Hash tx |}, None) in
      (* gossip the transaction if it's in the mempool. *)
      if CheckTx_Code r =? CodeTypeOK then
        g ← p2p_GossipTx node tx;
        match g with
        | Some err =>
            (* the transaction must be removed from the mempool if it
               cannot be gossiped. *)
            perform (Call_RemoveTxByKey (mempool_TxKey tx) true);;
            mret (None, Some (fmt_Errorf_w "valid tra: " err))
        | None => mret result
        end
      else mret result
  end.

(** *** Subscriptions *)

Definition Subscribe (node : Node) (subscriber query : string)
    (outCapacity : list Z)
  : Eff (Outcome (option Z * option error)) :=
  match tmquery_New query with
  | inl err =>
      mret (Returns (None, Some (fmt_Errorf_w "failed to parse query: " err)))
  | inr q =>
      let outCap := match outCapacity with [] => 1 | c :: _ => c end in
      r ← (if outCap >? 0 then bus_Subscribe node subscriber q [outCap]
           else bus_SubscribeUnbuffered node subscriber q);
      match r with
      | inl err =>
          mret (Returns (None, Some (fmt_Errorf_w "failed to subscribe: " err)))
      | inr sub =>
          (* outc := make(chan ctypes.ResultEvent, outCap) *)
          if outCap <? 0 then mret (Panics "makechan: size out of range")
          else
            perform (Call_Go_eventsRoutine sub subscriber q outCap);;
            mret (Returns (Some outCap, None))
      end
  end.

Definition Unsubscribe (node : Node) (subscriber query : string)
  : Eff (option error) :=
  match tmquery_New query with
  | inl err => mret (Some (fmt_Errorf_w "failed to parse query: " err))
  | inr q => bus_Unsubscribe node subscriber q
  end.

End WithLibs.

(** *** The forwarding routine of a subscription *)

(** What the event bus answers in one round of [resubscribe]:
    [c.IsRunning()] is false, or it is true and [EventBus.Subscribe]
    returns. *)
Inductive BusReply : Type :=
| NotRunning
| Running (r : error + Subscription).

Inductive Resubscribed : Type :=
| Resub_nil
| Resub_sub (sub : Subscription)
| Resub_retrying (attempts : Z).

(** [(10 << uint(attempts)) * time.Millisecond]; the constant 10 takes
    the type [time.Duration] of the product. *)
Definition backoff (attempts : Z) : Z :=
  mul (shl 10 (to_uint attempts)) Millisecond.

(** The loop of [resubscribe], run against the replies of the bus; when
    the replies run out the loop is still retrying. *)
Fixpoint resubscribe_loop (subscriber : string) (q : Query)
    (replies : list BusReply) (attempts : Z) : Eff Resubscribed :=
  match replies with
  | [] => mret (Resub_retrying attempts)
  | NotRunning :: _ => mret Resub_nil
  | Running r :: replies =>
      perform (Call_Subscribe subscriber q []);;
      match r with
      | inr sub => mret (Resub_sub sub)
      | inl _ =>
          let attempts := add attempts 1 in
          perform (Call_Sleep (backoff attempts));;
          resubscribe_loop subscriber q replies attempts
      end
  end.

Definition resubscribe (subscriber : string) (q : Query)
    (replies : list BusReply) : Eff Resubscribed :=
  let attempts := 0 in
  resubscribe_loop subscriber q replies attempts.

(** One firing of the [select] of [eventsRoutine]. *)
Inductive SelectCase : Type :=
| Recv_Out (msg : Message) (outcFull : bool)
| Recv_Cancelled (subErr : option error) (replies : list BusReply)
| Recv_Quit.

Inductive RoutineState : Type :=
| Exited
| Selecting
| Resubscribing (attempts : Z).

Fixpoint eventsRoutine (subscriber : string) (q : Query) (outCap : Z)
    (fired : list SelectCase) : Eff RoutineState :=
  match fired with
  | [] => mret Selecting
  | Recv_Out msg outcFull :: fired =>
      let result := {| Event_Query := q; Event_Data := msg_Data msg;
                       Event_Events := msg_Events msg |} in
      (if outCap =? 0 then perform (Call_Send result)
       else if outcFull then
         perform (Call_LoggerError
           "wanted to publish ResultEvent, but out channel is full" None)
       else perform (Call_Send result));;
      eventsRoutine subscriber q outCap fired
  | Recv_Cancelled subErr replies :: fired =>
      if decide (subErr = Some ErrUnsubscribed) then mret Exited
      else
        perform (Call_LoggerError
          "subscription was cancelled, resubscribing..." subErr);;
        sub ← resubscribe subscriber q replies;
        match sub with
        | Resub_nil => mret Exited
        | Resub_sub _ => eventsRoutine subscriber q outCap fired
        | Resub_retrying attempts => mret (Resubscribing attempts)
        end
  | Recv_Quit :: _ => mret Exited
  end.

(** *** Vocabulary of the properties *)

(** The durations slept in a trace, in order. *)
Definition sleeps (t : list Call) : list Z :=
  omap (fun c => match c with Call_Sleep d => Some d | _ => None end) t.

(** The calls of a [BroadcastTxCommit] that got its subscription: the
    subscription, what the body does, and the deferred release. *)
Definition released `{TendermintLib} (node : Node) (tx : Tx) (body : list Call) : list Call :=
  Call_Subscribe "" (EventQueryTxFor tx) [] :: body ++
  trace (unsubscribe_deferred node "" (EventQueryTxFor tx)).

(** Ascending and descending order on (height, index in block). *)
Definition key_asc (a b : TxResult) : Prop :=
  Height a < Height b \/ (Height a = Height b /\ Index a <= Index b).

Definition key_desc (a b : TxResult) : Prop :=
  Height a > Height b \/ (Height a = Height b /\ Index a >= Index b).

(** [out] is what pagination gives on the whole list [sorted]: the range
    error of [validatePage], or the hits from [skipCount] on, [pageSize] of
    them, together with the total count. *)
Definition is_page_of `{TendermintLib} (prove : bool)
    (pagePtr perPagePtr : option Z) (sorted : list TxResult)
    (out : Outcome (option ResultTxSearch * option error)) : Prop :=
  let perPage := validatePerPage perPagePtr in
  exists page err,
    validatePage pagePtr perPage (len sorted) = Returns (page, err) /\
    match err with
    | Some e => out = Returns (None, Some e)
    | None =>
        let skipCount := validateSkipCount page perPage in
        let pageSize := MinInt perPage (len sorted - skipCount) in
        0 <= skipCount /\ 0 <= pageSize /\
        skipCount + pageSize <= len sorted /\
        out = Returns (Some {|
          Txs := toResultTx prove <$>
                   take (Z.to_nat pageSize) (drop (Z.to_nat skipCount) sorted);
          TotalCount := len sorted |}, None)
    end.

End Client.

(** ** A sample node

    Concrete collaborators on which the client can be run: hashes are the
    transaction bytes themselves, every non-empty query parses, and the
    hits are sorted by stdpp's merge sort. *)

Module Sample.

Import Client.

Definition lib : TendermintLib :=
  {| Tx_Hash := fun tx => tx;
     mempool_TxKey := fun tx => tx;
     EventQueryTxFor := fun _ => "tm.event='Tx'";
     tmquery_New := fun s =>
       if String.eqb s "" then inl (errors_New "empty query") else inr s |}.

Definition not_less (less : TxResult -> TxResult -> bool) : relation TxResult :=
  fun a b => less b a = false.

#[local] Instance not_less_dec less a b : Decision (not_less less a b) :=
  bool_eq_dec (less b a) false.

Definition sort (less : TxResult -> TxResult -> bool) : list TxResult -> list TxResult :=
  merge_sort (not_less less).

Definition sorter : SortLib.
Proof.
  refine {| sort_Slice := sort |}.
  - intros less l. apply merge_sort_Permutation.
  - intros less l [Hirr Htr Hneg].
    assert (Transitive (not_less less)).
    { intros a b c Hab Hbc. unfold not_less in *. eauto. }
    assert (Total (not_less less)).
    { intros a b. unfold not_less.
      destruct (less b a) eqn:Hba; [|by left].
      destruct (less a b) eqn:Hab; [|by right].
      specialize (Htr a b a Hab Hba). rewrite Hirr in Htr. discriminate. }
    apply (StronglySorted_merge_sort (not_less less)); done.
Defined.

Definition hit (height idx : Z) : TxResult :=
  {| Height := height; Index := idx; TxBytes := [];
     Result := ResponseDeliverTx_zero |}.

Definition checkTx (code : Z) : ResponseCheckTx :=
  {| CheckTx_Code := code; CheckTx_Data := []; CheckTx_Log := "";
     CheckTx_Info := ""; CheckTx_GasWanted := 0; CheckTx_GasUsed := 0;
     CheckTx_Codespace := "" |}.

Definition subscription : Subscription :=
  {| sub_id := 1; sub_fate := Silent |}.

(** A node with [numClients] bus clients, an index holding [hits], a
    mempool answering [code] and a peer layer answering [gossip]. *)
Definition node (numClients : Z) (hits : list TxResult) (code : Z)
    (gossip : option error) : Node :=
  {| MaxSubscriptionClients := 100;
     MaxSubscriptionsPerClient := 5;
     EventBus_NumClients := numClients;
     EventBus_NumClientSubscriptions := fun _ => 0;
     EventBus_Subscribe := fun _ _ _ => inr subscription;
     EventBus_SubscribeUnbuffered := fun _ _ => inr subscription;
     EventBus_Unsubscribe := fun _ _ => None;
     Mempool_CheckTx := fun _ => inr (checkTx code);
     P2P_GossipTx := fun _ => gossip;
     TxIndexer_Search := fun _ => inr hits |}.

Definition three_hits : list TxResult :=
  [hit 5 2; hit 5 1; hit 7 0].

Definition keys (out : Outcome (option ResultTxSearch * option error))
  : list (Z * Z) :=
  match out with
  | Returns (Some res, _) =>
      (fun r => (ResultTx_Height r, ResultTx_Index r)) <$> Txs res
  | _ => []
  end.

End Sample.

(** * Properties *)

(** ** Integer arithmetic *)

Module GoIntProps.

Import GoInt.

Lemma wrap_id z : is_int z -> wrap z = z.
Proof.
  unfold is_int, wrap, MinInt64, MaxInt64. intros Hz.
  rewrite Z.mod_small; lia.
Qed.

Lemma wrap_is_int z : is_int (wrap z).
Proof.
  unfold is_int, wrap, MinInt64, MaxInt64.
  pose proof (Z.mod_pos_bound (z + 2 ^ 63) (2 ^ 64)). lia.
Qed.

End GoIntProps.

(** ** Pagination *)

Module ClientProps.

Import GoInt GoIntProps Client.

Ltac int_range := unfold is_int, GoInt.MinInt64, GoInt.MaxInt64 in *; lia.

Lemma validatePerPage_range (perPagePtr : option Z) :
  1 <= validatePerPage perPagePtr <= 100.
Proof.
  unfold validatePerPage, defaultPerPage, maxPerPage.
  destruct perPagePtr as [p|]; [|lia].
  destruct (Z.ltb_spec p 1); [lia|].
  destruct (Z.gtb_spec p 100); lia.
Qed.

(** For a real count of items the page count is the rounded-up quotient,
    and never less than one. *)
Lemma pageCount_spec (perPage totalCount : Z) :
  1 <= perPage ->
  0 <= totalCount <= GoInt.MaxInt64 ->
  pageCount perPage totalCount = Z.max 1 ((totalCount - 1) `div` perPage + 1).
Proof.
  intros Hpp Htot. unfold pageCount, add, quot, sub.
  rewrite (wrap_id (totalCount - 1)) by int_range.
  destruct (Z.eq_dec totalCount 0) as [->|Hpos].
  - assert ((0 - 1) `div` perPage = -1) as ->.
    { symmetry. apply (Z.div_unique_pos _ _ _ (perPage - 1)); lia. }
    replace (0 - 1) with (- (1)) by lia.
    rewrite Z.quot_opp_l by lia.
    destruct (Z.eq_dec perPage 1) as [->|Hne]; [reflexivity|].
    rewrite Z.quot_small by lia. reflexivity.
  - rewrite Z.quot_div_nonneg by lia.
    assert (0 <= (totalCount - 1) `div` perPage <= totalCount - 1).
    { split; [apply Z.div_pos; lia|].
      apply Z.div_le_upper_bound; [lia|]. nia. }
    rewrite (wrap_id ((totalCount - 1) `div` perPage)) by int_range.
    rewrite wrap_id by int_range.
    destruct (Z.eqb_spec ((totalCount - 1) `div` perPage + 1) 0); lia.
Qed.

Lemma pageCount_ge_1 (perPage totalCount : Z) :
  1 <= perPage -> 0 <= totalCount <= GoInt.MaxInt64 ->
  1 <= pageCount perPage totalCount.
Proof. intros. rewrite pageCount_spec by done. lia. Qed.

Lemma pageCount_empty (perPage : Z) : 1 <= perPage -> pageCount perPage 0 = 1.
Proof.
  intros. rewrite pageCount_spec by int_range.
  assert ((0 - 1) `div` perPage = -1) as ->; [|reflexivity].
  symmetry. apply (Z.div_unique_pos _ _ _ (perPage - 1)); lia.
Qed.

Lemma validateSkipCount_nonneg (page perPage : Z) :
  0 <= validateSkipCount page perPage.
Proof.
  unfold validateSkipCount.
  destruct (Z.ltb_spec (mul (sub page 1) perPage) 0); lia.
Qed.

(** Without overflow the skip count is the number of items on the pages
    before [page]. *)
Lemma validateSkipCount_spec (page perPage : Z) :
  1 <= page -> 1 <= perPage -> (page - 1) * perPage <= GoInt.MaxInt64 ->
  validateSkipCount page perPage = (page - 1) * perPage.
Proof.
  intros Hp Hpp Hmax. unfold validateSkipCount, mul, sub.
  assert (0 <= (page - 1) * perPage) by nia.
  assert (page - 1 <= GoInt.MaxInt64) by (unfold GoInt.MaxInt64 in *; nia).
  rewrite (wrap_id (page - 1)) by int_range.
  rewrite wrap_id by int_range.
  destruct (Z.ltb_spec ((page - 1) * perPage) 0); lia.
Qed.

Example pagination_of_45 :
  pageCount 30 45 = 2 /\
  validatePage (Some 2) 30 45 = Returns (2, None) /\
  validateSkipCount 2 30 = 30 /\
  MinInt 30 (sub 45 30) = 15 /\
  validatePage (Some 3) 30 45 = Returns (1, Some (errors_New
    "page should be within [1, 2] range, given 3")).
Proof. repeat split. Qed.

(** C9: whatever the caller supplies, the effective per-page value lies in
    [1,100] (an absent or non-positive value gives the default 30, a value
    above 100 gives 100, a value in range is kept), the page count of a
    result set is at least 1 even when the set is empty, and the skip count
    is never negative. *)
Theorem pagination_invariants (perPagePtr : option Z) (page totalCount : Z) :
  0 <= totalCount <= GoInt.MaxInt64 ->
  let perPage := validatePerPage perPagePtr in
  1 <= perPage <= 100 /\
  (perPagePtr = None -> perPage = 30) /\
  (forall p, perPagePtr = Some p -> p <= 0 -> perPage = 30) /\
  (forall p, perPagePtr = Some p -> 100 < p -> perPage = 100) /\
  (forall p, perPagePtr = Some p -> 1 <= p <= 100 -> perPage = p) /\
  1 <= pageCount perPage totalCount /\
  0 <= validateSkipCount page perPage.
Proof.
  intros Htot perPage.
  pose proof (validatePerPage_range perPagePtr) as Hrange.
  split; [exact Hrange|].
  repeat split.
  - intros ->. reflexivity.
  - intros p -> Hp. unfold perPage, validatePerPage.
    destruct (Z.ltb_spec p 1); [reflexivity|lia].
  - intros p -> Hp. unfold perPage, validatePerPage, maxPerPage.
    destruct (Z.ltb_spec p 1); [lia|].
    destruct (Z.gtb_spec p 100); [reflexivity|lia].
  - intros p -> Hp. unfold perPage, validatePerPage, maxPerPage.
    destruct (Z.ltb_spec p 1); [lia|].
    destruct (Z.gtb_spec p 100); [lia|reflexivity].
  - apply pageCount_ge_1; [fold perPage in Hrange; lia|done].
  - apply validateSkipCount_nonneg.
Qed.

Lemma pagination_invariants_witness :
  0 <= 0 <= GoInt.MaxInt64 /\
  1 <= pageCount (validatePerPage (Some (-7))) 0 /\
  0 <= validateSkipCount (-3) (validatePerPage (Some (-7))).
Proof.
  assert (0 <= 0 <= GoInt.MaxInt64) as H0 by (unfold GoInt.MaxInt64; lia).
  split; [exact H0|].
  destruct (pagination_invariants (Some (-7)) (-3) 0 H0)
    as (_ & _ & _ & _ & _ & Hpages & Hskip).
  split; [exact Hpages|exact Hskip].
Defined.

(** ** TxSearch *)

Section TxSearchProps.
Context `{TendermintLib} `{SortLib}.

Lemma sort_Slice_nil (less : TxResult -> TxResult -> bool) :
  sort_Slice less [] = [].
Proof. apply Permutation_nil_r. apply sort_Slice_Permutation. Qed.

Lemma sort_Slice_len (less : TxResult -> TxResult -> bool) (l : list TxResult) :
  len (sort_Slice less l) = len l.
Proof. unfold len. by rewrite (sort_Slice_Permutation less l). Qed.

Lemma less_asc_strict : StrictWeakOrder less_asc.
Proof.
  split; unfold less_asc.
  - intros a. rewrite Z.eqb_refl. apply Z.ltb_irrefl.
  - intros a b c.
    destruct (Z.eqb_spec (Height a) (Height b)), (Z.eqb_spec (Height b) (Height c)),
      (Z.eqb_spec (Height a) (Height c)); lia.
  - intros a b c.
    destruct (Z.eqb_spec (Height a) (Height b)), (Z.eqb_spec (Height b) (Height c)),
      (Z.eqb_spec (Height a) (Height c)); lia.
Qed.

Lemma less_desc_strict : StrictWeakOrder less_desc.
Proof.
  split; unfold less_desc.
  - intros a. rewrite Z.eqb_refl. rewrite Z.gtb_ltb. apply Z.ltb_irrefl.
  - intros a b c. rewrite !Z.gtb_ltb.
    destruct (Z.eqb_spec (Height a) (Height b)), (Z.eqb_spec (Height b) (Height c)),
      (Z.eqb_spec (Height a) (Height c)); lia.
  - intros a b c. rewrite !Z.gtb_ltb.
    destruct (Z.eqb_spec (Height a) (Height b)), (Z.eqb_spec (Height b) (Height c)),
      (Z.eqb_spec (Height a) (Height c)); lia.
Qed.

Lemma StronglySorted_weaken {A} (R S : relation A) (l : list A) :
  (forall a b, R a b -> S a b) -> StronglySorted R l -> StronglySorted S l.
Proof.
  intros HRS. induction 1 as [|a l Hl IH Hall]; constructor; [done|].
  eapply Forall_impl; eauto.
Qed.

Lemma sort_Slice_asc (l : list TxResult) :
  StronglySorted key_asc (sort_Slice less_asc l).
Proof.
  eapply StronglySorted_weaken; [|apply sort_Slice_Sorted, less_asc_strict].
  intros a b. unfold less_asc, key_asc.
  destruct (Z.eqb_spec (Height b) (Height a)); lia.
Qed.

Lemma sort_Slice_desc (l : list TxResult) :
  StronglySorted key_desc (sort_Slice less_desc l).
Proof.
  eapply StronglySorted_weaken; [|apply sort_Slice_Sorted, less_desc_strict].
  intros a b. unfold less_desc, key_desc. rewrite !Z.gtb_ltb.
  destruct (Z.eqb_spec (Height b) (Height a)); lia.
Qed.

Lemma index_lookup {A} (l : list A) (i : Z) (a : A) :
  0 <= i -> l !! Z.to_nat i = Some a -> index l i = Returns a.
Proof.
  intros Hi Hl. unfold index. destruct (Z.ltb_spec i 0); [lia|]. by rewrite Hl.
Qed.

(** The loop copies [n] consecutive hits, starting at index [i]. *)
Lemma collectPage_spec (prove : bool) (results : list TxResult) (n : nat) :
  forall (i : Z) (acc : list ResultTx),
    0 <= i -> i + Z.of_nat n <= len results -> len results <= GoInt.MaxInt64 ->
    collectPage prove results i n acc =
      Returns (acc ++ (toResultTx prove <$> take n (drop (Z.to_nat i) results))).
Proof.
  unfold len. induction n as [|n IH]; intros i acc Hi Hlen Hmax; simpl.
  - by rewrite app_nil_r.
  - destruct (lookup_lt_is_Some_2 results (Z.to_nat i)) as [r Hr]; [lia|].
    rewrite (index_lookup _ _ _ Hi Hr). simpl.
    unfold add. rewrite wrap_id by int_range.
    rewrite IH by lia.
    rewrite (drop_S _ _ _ Hr). simpl.
    replace (Z.to_nat (i + 1)) with (S (Z.to_nat i)) by lia.
    by rewrite <- app_assoc.
Qed.

(** Whatever the loop returns, it only adds hits built by [toResultTx]. *)
Lemma collectPage_Forall (P : ResultTx -> Prop) (prove : bool)
    (results : list TxResult) (n : nat) :
  (forall r, P (toResultTx prove r)) ->
  forall (i : Z) (acc out : list ResultTx),
    Forall P acc ->
    collectPage prove results i n acc = Returns out ->
    Forall P out.
Proof.
  intros HP. induction n as [|n IH]; intros i acc out Hacc; simpl.
  - by intros [= <-].
  - destruct (index results i) as [r|msg]; simpl; [|done].
    apply IH. apply Forall_app; split; [done|]. by constructor.
Qed.

Lemma paginateResults_page (prove : bool) (pagePtr perPagePtr : option Z)
    (sorted : list TxResult) :
  len sorted <= GoInt.MaxInt64 ->
  is_page_of prove pagePtr perPagePtr sorted
    (paginateResults prove pagePtr perPagePtr sorted).
Proof.
  intros Hmax. unfold is_page_of, paginateResults.
  pose proof (validatePerPage_range perPagePtr) as Hpp.
  set (perPage := validatePerPage perPagePtr) in *.
  set (total := len sorted) in *.
  assert (0 <= total) as Htot by (unfold total, len; lia).
  assert (exists page err,
    validatePage pagePtr perPage total = Returns (page, err) /\
    (err = None -> 1 <= page /\ (page - 1) * perPage <= total /\
                   (total = 0 \/ (page - 1) * perPage < total)))
    as (page & err & Hvp & Hpage).
  { clearbody total perPage.
    unfold validatePage. destruct (Z.ltb_spec perPage 1); [lia|].
    destruct pagePtr as [page|].
    - pose proof (pageCount_spec perPage total ltac:(lia) ltac:(lia)) as Hpc.
      destruct (Z.leb_spec page 0); simpl.
      { eexists _, _. split; [done|]. discriminate. }
      destruct (Z.gtb_spec page (pageCount perPage total)).
      { eexists _, _. split; [done|]. discriminate. }
      eexists _, _. split; [done|]. intros _.
      destruct (Z.eq_dec total 0) as [->|].
      + rewrite pageCount_empty in * by lia.
        assert (page = 1) as -> by lia. lia.
      + assert (0 <= (total - 1) `div` perPage) by (apply Z.div_pos; lia).
        assert (page - 1 <= (total - 1) `div` perPage) by lia.
        assert (perPage * ((total - 1) `div` perPage) <= total - 1)
          by (apply Z.mul_div_le; lia).
        assert ((page - 1) * perPage <= (total - 1) `div` perPage * perPage)
          by (apply Z.mul_le_mono_nonneg_r; lia).
        lia.
    - eexists _, _. split; [done|]. lia. }
  exists page, err. split; [done|]. rewrite Hvp. simpl.
  destruct err as [e|]; [done|].
  destruct (Hpage eq_refl) as (Hp1 & Hskip & _).
  assert (0 <= (page - 1) * perPage) by nia.
  rewrite validateSkipCount_spec by int_range.
  set (skip := (page - 1) * perPage) in *. clearbody skip.
  unfold sub. rewrite wrap_id by int_range.
  set (size := MinInt perPage (total - skip)).
  assert (0 <= size /\ skip + size <= total) as [Hs1 Hs2].
  { unfold size, MinInt. destruct (Z.ltb_spec perPage (total - skip)); lia. }
  destruct (Z.ltb_spec size 0); [lia|].
  unfold add. rewrite wrap_id by int_range.
  rewrite collectPage_spec by (fold total; lia).
  simpl. repeat split; try done.
  repeat f_equal. lia.
Qed.

Lemma paginateResults_proofs (prove : bool) (pagePtr perPagePtr : option Z)
    (results : list TxResult) (res : ResultTxSearch) (err : option error) :
  paginateResults prove pagePtr perPagePtr results = Returns (Some res, err) ->
  Forall (fun r => ResultTx_Proof r = TxProof_zero) (Txs res).
Proof.
  unfold paginateResults.
  destruct (validatePage _ _ _) as [[page [e|]]|msg]; simpl; try done.
  destruct (_ <? 0); [done|].
  destruct (collectPage _ _ _ _ _) as [out|msg] eqn:Hloop; simpl; [|done].
  intros [= <- _]. simpl.
  eapply collectPage_Forall; [|constructor|exact Hloop]. done.
Qed.

(** C10: every hit that [TxSearch] returns has an empty (zero-valued)
    inclusion proof, whether or not [prove] is set. *)
Theorem TxSearch_proof_always_empty (node : Node) (query : string)
    (prove : bool) (pagePtr perPagePtr : option Z) (orderBy : string)
    (res : ResultTxSearch) (err : option error) :
  TxSearch node query prove pagePtr perPagePtr orderBy = Returns (Some res, err) ->
  Forall (fun r => ResultTx_Proof r = TxProof_zero) (Txs res).
Proof.
  unfold TxSearch.
  destruct (tmquery_New query) as [e|q]; [done|].
  destruct (TxIndexer_Search node q) as [e|results]; [done|].
  destruct (String.eqb orderBy "desc"); [apply paginateResults_proofs|].
  destruct (String.eqb orderBy "asc" || String.eqb orderBy "");
    [apply paginateResults_proofs|done].
Qed.

(** C8: the hits are sorted on (height, index in block), ascending for the
    order tokens "" and "asc" and descending for "desc", and the page is
    cut out of the whole sorted list; any other token is answered with a
    validation error. *)
Theorem TxSearch_sorts_before_paginating (node : Node) (query : string)
    (prove : bool) (pagePtr perPagePtr : option Z) (orderBy : string)
    (q : Query) (hits : list TxResult) :
  tmquery_New query = inr q ->
  TxIndexer_Search node q = inr hits ->
  len hits <= GoInt.MaxInt64 ->
  let out := TxSearch node query prove pagePtr perPagePtr orderBy in
  (orderBy = "" \/ orderBy = "asc" ->
     exists sorted, sorted ≡ₚ hits /\ StronglySorted key_asc sorted /\
       is_page_of prove pagePtr perPagePtr sorted out) /\
  (orderBy = "desc" ->
     exists sorted, sorted ≡ₚ hits /\ StronglySorted key_desc sorted /\
       is_page_of prove pagePtr perPagePtr sorted out) /\
  (orderBy <> "" -> orderBy <> "asc" -> orderBy <> "desc" ->
     out = Returns (None, Some (errors_New
       "expected order_by to be either `asc` or `desc` or empty"))).
Proof.
  intros Hq Hhits Hmax out. subst out. unfold TxSearch. rewrite Hq, Hhits.
  split; [|split].
  - intros Horder. exists (sort_Slice less_asc hits).
    split; [apply sort_Slice_Permutation|]. split; [apply sort_Slice_asc|].
    assert (String.eqb orderBy "desc" = false) as ->
      by (destruct Horder as [-> | ->]; reflexivity).
    assert (String.eqb orderBy "asc" || String.eqb orderBy "" = true) as ->
      by (destruct Horder as [-> | ->]; reflexivity).
    apply paginateResults_page. by rewrite sort_Slice_len.
  - intros ->. exists (sort_Slice less_desc hits).
    split; [apply sort_Slice_Permutation|]. split; [apply sort_Slice_desc|].
    simpl. apply paginateResults_page. by rewrite sort_Slice_len.
  - intros H1 H2 H3.
    apply String.eqb_neq in H1, H2, H3. by rewrite H3, H2, H1.
Qed.

(** C3, as the code has it: when the search has no hits the page count is
    1 for every per-page value; a request for page 1, or for no page in
    particular, succeeds with page 1, skip count 0 and an empty slice; a
    request for any other page is answered with the range error naming
    [1, 1]. *)
Theorem TxSearch_no_hits (node : Node) (query : string) (prove : bool)
    (pagePtr perPagePtr : option Z) (orderBy : string) (q : Query) :
  tmquery_New query = inr q ->
  TxIndexer_Search node q = inr [] ->
  orderBy = "" \/ orderBy = "asc" \/ orderBy = "desc" ->
  let perPage := validatePerPage perPagePtr in
  let out := TxSearch node query prove pagePtr perPagePtr orderBy in
  pageCount perPage 0 = 1 /\
  (pagePtr = None \/ pagePtr = Some 1 ->
     validatePage pagePtr perPage 0 = Returns (1, None) /\
     validateSkipCount 1 perPage = 0 /\
     MinInt perPage (sub 0 (validateSkipCount 1 perPage)) = 0 /\
     out = Returns (Some {| Txs := []; TotalCount := 0 |}, None)) /\
  (forall page, pagePtr = Some page -> page <> 1 ->
     out = Returns (None, Some (errors_New
       ("page should be within [1, " +:+ pretty 1 +:+
        "] range, given " +:+ pretty page)))).
Proof.
  intros Hq Hhits Horder perPage out.
  pose proof (validatePerPage_range perPagePtr) as Hpp. fold perPage in Hpp.
  assert (pageCount perPage 0 = 1) as Hpages by (apply pageCount_empty; lia).
  assert (out = paginateResults prove pagePtr perPagePtr []) as ->.
  { unfold out, TxSearch. rewrite Hq, Hhits.
    destruct Horder as [-> | [-> | ->]]; simpl; by rewrite sort_Slice_nil. }
  assert (validateSkipCount 1 perPage = 0) as Hskip
    by (rewrite validateSkipCount_spec; int_range).
  assert (MinInt perPage (sub 0 0) = 0) as Hsize.
  { unfold MinInt. change (sub 0 0) with 0.
    destruct (Z.ltb_spec perPage 0); [lia|done]. }
  unfold paginateResults. fold perPage. change (len []) with 0.
  unfold validatePage. rewrite Hpages.
  destruct (Z.ltb_spec perPage 1); [lia|].
  split; [done|]. split.
  - intros [-> | ->]; simpl; rewrite Hskip, Hsize; done.
  - intros page -> Hpage.
    destruct (Z.leb_spec page 0); simpl; [done|].
    destruct (Z.gtb_spec page 1); simpl; [done|lia].
Qed.

End TxSearchProps.

(** The properties of [TxSearch] on the sample node. *)

Example TxSearch_asc :
  Sample.keys (TxSearch (H:=Sample.lib) (H0:=Sample.sorter)
          (Sample.node 0 Sample.three_hits 0 None) "q" false None None "asc")
  = [(5, 1); (5, 2); (7, 0)].
Proof. vm_compute. reflexivity. Qed.

Example TxSearch_desc :
  Sample.keys (TxSearch (H:=Sample.lib) (H0:=Sample.sorter)
          (Sample.node 0 Sample.three_hits 0 None) "q" false None None "desc")
  = [(7, 0); (5, 2); (5, 1)].
Proof. vm_compute. reflexivity. Qed.

Lemma TxSearch_proof_always_empty_witness :
  exists res,
    TxSearch (H:=Sample.lib) (H0:=Sample.sorter)
      (Sample.node 0 Sample.three_hits 0 None) "q" true None None "asc"
      = Returns (Some res, None) /\
    length (Txs res) = 3%nat /\
    Forall (fun r => ResultTx_Proof r = TxProof_zero) (Txs res).
Proof.
  eexists. split; [vm_compute; reflexivity|]. split; [reflexivity|].
  apply (TxSearch_proof_always_empty (H:=Sample.lib) (H0:=Sample.sorter)
           (Sample.node 0 Sample.three_hits 0 None) "q" true None None "asc" _ None).
  vm_compute. reflexivity.
Defined.

Lemma TxSearch_sorts_before_paginating_witness :
  exists sorted,
    sorted ≡ₚ Sample.three_hits /\ StronglySorted key_desc sorted /\
    is_page_of (H:=Sample.lib) true (Some 2) (Some 2) sorted
      (TxSearch (H:=Sample.lib) (H0:=Sample.sorter)
         (Sample.node 0 Sample.three_hits 0 None) "q" true (Some 2) (Some 2) "desc").
Proof.
  assert (len Sample.three_hits <= GoInt.MaxInt64) as Hlen by (vm_compute; discriminate).
  destruct (TxSearch_sorts_before_paginating (H:=Sample.lib) (H0:=Sample.sorter)
              (Sample.node 0 Sample.three_hits 0 None) "q" true (Some 2) (Some 2)
              "desc" "q" Sample.three_hits eq_refl eq_refl Hlen) as (_ & Hdesc & _).
  exact (Hdesc eq_refl).
Defined.

Lemma TxSearch_no_hits_witness :
  TxSearch (H:=Sample.lib) (H0:=Sample.sorter)
    (Sample.node 0 [] 0 None) "q" false (Some 1) (Some 500) "desc"
  = Returns (Some {| Txs := []; TotalCount := 0 |}, None).
Proof.
  destruct (TxSearch_no_hits (H:=Sample.lib) (H0:=Sample.sorter)
              (Sample.node 0 [] 0 None) "q" false (Some 1) (Some 500) "desc" "q"
              eq_refl eq_refl (or_intror (or_intror eq_refl)))
    as (_ & Hok & _).
  apply Hok. right. reflexivity.
Defined.

(** C3, as stated, fails: with no hits a request for page 2 does not
    succeed, it is answered with the range error. *)
Lemma TxSearch_no_hits_page_2_rejected :
  TxIndexer_Search (Sample.node 0 [] 0 None) "q" = inr [] /\
  TxSearch (H:=Sample.lib) (H0:=Sample.sorter)
    (Sample.node 0 [] 0 None) "q" false (Some 2) None ""
  = Returns (None, Some (errors_New
      "page should be within [1, 1] range, given 2")).
Proof. split; [reflexivity|]. vm_compute. reflexivity. Qed.

(** ** Broadcasting *)

Section BroadcastProps.
Context `{TendermintLib}.

(** A call that passes the limits and gets its subscription runs the
    part of [BroadcastTxCommit] under the [defer]. *)
Ltac enter_commit node Hsub :=
  unfold BroadcastTxCommit, released;
  destruct (Z.geb_spec (EventBus_NumClients node) (MaxSubscriptionClients node));
    [lia|];
  destruct (Z.geb_spec (EventBus_NumClientSubscriptions node "")
              (MaxSubscriptionsPerClient node)); [lia|];
  unfold bus_Subscribe; simpl; rewrite Hsub; simpl.

(** C7: when the mempool validation answers with a non-OK code,
    [BroadcastTxCommit] returns, without error, a result holding the
    validation answer, an empty inclusion result and height 0; the peers
    are never called and the subscription is released. *)
Theorem BroadcastTxCommit_validation_rejected (node : Node) (tx : Tx)
    (sub : Subscription) (checkTxRes : ResponseCheckTx) :
  EventBus_NumClients node < MaxSubscriptionClients node ->
  EventBus_NumClientSubscriptions node "" < MaxSubscriptionsPerClient node ->
  EventBus_Subscribe node "" (EventQueryTxFor tx) [] = inr sub ->
  Mempool_CheckTx node tx = inr checkTxRes ->
  CheckTx_Code checkTxRes <> CodeTypeOK ->
  let run := BroadcastTxCommit node tx in
  value run = Returns (Some {| Commit_CheckTx := checkTxRes;
                               Commit_DeliverTx := ResponseDeliverTx_zero;
                               Commit_Hash := Tx_Hash tx;
                               Commit_Height := 0 |}, None) /\
  trace run = released node tx [Call_CheckTx tx] /\
  Forall (fun c => forall tx', c <> Call_GossipTx tx') (trace run) /\
  Call_Unsubscribe "" (EventQueryTxFor tx) ∈ trace run.
Proof.
  intros Hclients Hsubs Hsub Hcheck Hcode run. subst run.
  enter_commit node Hsub.
  rewrite Hcheck. simpl.
  destruct (Z.eqb_spec (CheckTx_Code checkTxRes) CodeTypeOK); [done|]. simpl.
  unfold unsubscribe_deferred, bus_Unsubscribe. simpl.
  destruct (EventBus_Unsubscribe node "" (EventQueryTxFor tx)); simpl;
    (repeat split; [repeat constructor; discriminate | set_solver]).
Qed.

(** C1, as the code has it: when the validation answers OK and the gossip
    to the peers fails, [BroadcastTxCommit] returns the gossip error,
    wrapped, and no result at all; the subscription is released. *)
Theorem BroadcastTxCommit_gossip_failure (node : Node) (tx : Tx)
    (sub : Subscription) (checkTxRes : ResponseCheckTx) (err : error) :
  EventBus_NumClients node < MaxSubscriptionClients node ->
  EventBus_NumClientSubscriptions node "" < MaxSubscriptionsPerClient node ->
  EventBus_Subscribe node "" (EventQueryTxFor tx) [] = inr sub ->
  Mempool_CheckTx node tx = inr checkTxRes ->
  CheckTx_Code checkTxRes = CodeTypeOK ->
  P2P_GossipTx node tx = Some err ->
  let run := BroadcastTxCommit node tx in
  value run = Returns (None, Some (fmt_Errorf_w
    "tx added to local mempool but failure to broadcast: " err)) /\
  trace run = released node tx [Call_CheckTx tx; Call_GossipTx tx] /\
  Call_Unsubscribe "" (EventQueryTxFor tx) ∈ trace run.
Proof.
  intros Hclients Hsubs Hsub Hcheck Hcode Hgossip run. subst run.
  enter_commit node Hsub.
  rewrite Hcheck. simpl. rewrite Hcode. simpl. rewrite Hgossip. simpl.
  unfold unsubscribe_deferred, bus_Unsubscribe. simpl.
  destruct (EventBus_Unsubscribe node "" (EventQueryTxFor tx)); simpl;
    (repeat split; set_solver).
Qed.

(** C5, as the code has it: the limits on subscribers are checked by
    [BroadcastTxCommit], which fails with an error naming the limit before
    it calls the bus or any other collaborator; [Subscribe] checks no
    limit, its first call is the registration on the bus whenever the
    query parses. *)
Theorem subscription_limits (node : Node) (tx : Tx)
    (subscriber query : string) (outCapacity : list Z) (q : Query) :
  (EventBus_NumClients node >= MaxSubscriptionClients node \/
   EventBus_NumClientSubscriptions node "" >= MaxSubscriptionsPerClient node ->
   BroadcastTxCommit node tx = mkEff [] (Returns (None, Some (errors_New
     (if EventBus_NumClients node >=? MaxSubscriptionClients node
      then "max_subscription_clients " +:+
             pretty (MaxSubscriptionClients node) +:+ " reached"
      else "max_subscriptions_per_client " +:+
             pretty (MaxSubscriptionsPerClient node) +:+ " reached"))))) /\
  (tmquery_New query = inr q ->
   let outCap := match outCapacity with [] => 1 | c :: _ => c end in
   head (trace (Subscribe node subscriber query outCapacity))
   = Some (if outCap >? 0 then Call_Subscribe subscriber q [outCap]
           else Call_SubscribeUnbuffered subscriber q)).
Proof.
  split.
  - intros Hlimit. unfold BroadcastTxCommit.
    destruct (Z.geb_spec (EventBus_NumClients node) (MaxSubscriptionClients node));
      [reflexivity|].
    destruct (Z.geb_spec (EventBus_NumClientSubscriptions node "")
                (MaxSubscriptionsPerClient node)); [reflexivity|lia].
  - intros Hq outCap. unfold Subscribe. rewrite Hq. fold outCap.
    destruct (outCap >? 0); reflexivity.
Qed.

(** C6: when the validation answers OK and the gossip fails,
    [BroadcastTxSync] removes the transaction from the mempool, by the key
    derived from its bytes, and then returns the error. *)
Theorem BroadcastTxSync_gossip_failure_removes_tx (node : Node) (tx : Tx)
    (r : ResponseCheckTx) (err : error) :
  Mempool_CheckTx node tx = inr r ->
  CheckTx_Code r = CodeTypeOK ->
  P2P_GossipTx node tx = Some err ->
  BroadcastTxSync node tx =
    mkEff [Call_CheckTx tx; Call_GossipTx tx;
           Call_RemoveTxByKey (mempool_TxKey tx) true]
          (None, Some (fmt_Errorf_w "valid tra: " err)).
Proof.
  intros Hcheck Hcode Hgossip.
  unfold BroadcastTxSync, mempool_CheckTx, p2p_GossipTx.
  unfold mbind, Eff_bind, mret, Eff_ret, perform. simpl.
  rewrite Hcheck, Hcode. simpl. rewrite Hgossip. reflexivity.
Qed.

(** The other two modes answer a failed gossip in the same way: an error
    and no result. *)
Lemma BroadcastTxAsync_gossip_failure (node : Node) (tx : Tx)
    (r : ResponseCheckTx) (err : error) :
  Mempool_CheckTx node tx = inr r ->
  P2P_GossipTx node tx = Some err ->
  BroadcastTxAsync node tx =
    mkEff [Call_CheckTx tx; Call_GossipTx tx]
          (None, Some (fmt_Errorf_w
             "tx added to local mempool but failed to gossip: " err)).
Proof.
  intros Hcheck Hgossip.
  unfold BroadcastTxAsync, mempool_CheckTx, p2p_GossipTx.
  unfold mbind, Eff_bind, mret, Eff_ret, perform. simpl.
  rewrite Hcheck. simpl. rewrite Hgossip. reflexivity.
Qed.

End BroadcastProps.

(** The properties of the broadcast calls on the sample node. *)

Lemma BroadcastTxCommit_validation_rejected_witness :
  value (BroadcastTxCommit (H:=Sample.lib) (Sample.node 0 [] 1 None) [])
  = Returns (Some {| Commit_CheckTx := Sample.checkTx 1;
                     Commit_DeliverTx := ResponseDeliverTx_zero;
                     Commit_Hash := [];
                     Commit_Height := 0 |}, None).
Proof.
  assert (1 <> CodeTypeOK) as Hcode by discriminate.
  destruct (BroadcastTxCommit_validation_rejected (H:=Sample.lib)
              (Sample.node 0 [] 1 None) [] Sample.subscription (Sample.checkTx 1)
              eq_refl eq_refl eq_refl eq_refl Hcode) as (Hvalue & _).
  exact Hvalue.
Defined.

Lemma BroadcastTxCommit_gossip_failure_witness :
  value (BroadcastTxCommit (H:=Sample.lib)
           (Sample.node 0 [] 0 (Some (errors_New "no peers"))) [])
  = Returns (None, Some (fmt_Errorf_w
      "tx added to local mempool but failure to broadcast: "
      (errors_New "no peers"))).
Proof.
  destruct (BroadcastTxCommit_gossip_failure (H:=Sample.lib)
              (Sample.node 0 [] 0 (Some (errors_New "no peers"))) []
              Sample.subscription (Sample.checkTx 0) (errors_New "no peers")
              eq_refl eq_refl eq_refl eq_refl eq_refl eq_refl) as (Hvalue & _).
  exact Hvalue.
Defined.

(** C1, as stated, fails: the validation answered OK and the gossip
    failed, and the call hands back no result, so no validation outcome
    reaches the caller. *)
Lemma BroadcastTxCommit_gossip_failure_drops_CheckTx :
  Mempool_CheckTx (Sample.node 0 [] 0 (Some (errors_New "no peers"))) []
    = inr (Sample.checkTx CodeTypeOK) /\
  P2P_GossipTx (Sample.node 0 [] 0 (Some (errors_New "no peers"))) []
    = Some (errors_New "no peers") /\
  forall res err,
    value (BroadcastTxCommit (H:=Sample.lib)
             (Sample.node 0 [] 0 (Some (errors_New "no peers"))) [])
    <> Returns (Some res, err).
Proof. repeat split. intros res err. vm_compute. discriminate. Qed.

Lemma subscription_limits_witness :
  BroadcastTxCommit (H:=Sample.lib) (Sample.node 100 [] 0 None) []
  = mkEff [] (Returns (None, Some (errors_New
      "max_subscription_clients 100 reached"))).
Proof.
  assert (EventBus_NumClients (Sample.node 100 [] 0 None)
            >= MaxSubscriptionClients (Sample.node 100 [] 0 None)) as Hfull
    by (simpl; lia).
  destruct (subscription_limits (H:=Sample.lib) (Sample.node 100 [] 0 None) []
              "client" "q" [] "q") as [Hcommit _].
  exact (Hcommit (or_introl Hfull)).
Defined.

(** C5, as stated, fails: with the bus at its limit of subscribers,
    [Subscribe] registers on the bus and returns a channel. *)
Lemma Subscribe_at_limit_registers :
  EventBus_NumClients (Sample.node 100 [] 0 None)
    = MaxSubscriptionClients (Sample.node 100 [] 0 None) /\
  Subscribe (H:=Sample.lib) (Sample.node 100 [] 0 None) "client" "q" []
  = mkEff [Call_Subscribe "client" "q" [1];
           Call_Go_eventsRoutine Sample.subscription "client" "q" 1]
          (Returns (Some 1, None)).
Proof. split; reflexivity. Qed.

Lemma BroadcastTxSync_gossip_failure_removes_tx_witness :
  BroadcastTxSync (H:=Sample.lib)
    (Sample.node 0 [] 0 (Some (errors_New "no peers"))) [x01%byte]
  = mkEff [Call_CheckTx [x01%byte]; Call_GossipTx [x01%byte];
           Call_RemoveTxByKey [x01%byte] true]
          (None, Some (fmt_Errorf_w "valid tra: " (errors_New "no peers"))).
Proof.
  exact (BroadcastTxSync_gossip_failure_removes_tx (H:=Sample.lib)
           (Sample.node 0 [] 0 (Some (errors_New "no peers"))) [x01%byte]
           (Sample.checkTx 0) (errors_New "no peers") eq_refl eq_refl eq_refl).
Defined.

(** ** Resubscription *)

(** While the product does not overflow, the sleep after [attempts] failed
    attempts lasts 10 * 2 ^ attempts milliseconds. *)
Lemma backoff_spec (attempts : Z) :
  0 <= attempts <= 39 -> backoff attempts = 10 * 2 ^ attempts * Millisecond.
Proof.
  intros Hk. unfold backoff, mul, shl, to_uint, Millisecond.
  rewrite (Z.mod_small attempts) by lia.
  destruct (Z.leb_spec 64 attempts); [lia|].
  rewrite Z.shiftl_mul_pow2 by lia.
  assert (1 <= 2 ^ attempts <= 2 ^ 39) as Hpow.
  { split; [|apply Z.pow_le_mono_r; lia].
    pose proof (Z.pow_pos_nonneg 2 attempts). lia. }
  rewrite (wrap_id (10 * 2 ^ attempts)) by int_range.
  rewrite wrap_id by int_range. reflexivity.
Qed.

Lemma resubscribe_loop_failed (subscriber : string) (q : Query) (e : error)
    (replies : list BusReply) (attempts : Z) :
  sleeps (trace (resubscribe_loop subscriber q
                   (Running (inl e) :: replies) attempts))
  = backoff (add attempts 1) ::
    sleeps (trace (resubscribe_loop subscriber q replies (add attempts 1))).
Proof. reflexivity. Qed.

(** A run of [n] failed attempts sleeps [n] times: the k-th sleep is the
    back-off for k more attempts than the loop started with. *)
Lemma resubscribe_loop_failures (subscriber : string) (q : Query) (e : error)
    (replies : list BusReply) (n : nat) :
  forall attempts : Z,
    0 <= attempts -> attempts + Z.of_nat n <= GoInt.MaxInt64 ->
    sleeps (trace (resubscribe_loop subscriber q
                     (replicate n (Running (inl e)) ++ replies) attempts))
    = ((fun k => backoff (attempts + Z.of_nat k)) <$> seq 1 n) ++
      sleeps (trace (resubscribe_loop subscriber q replies
                       (attempts + Z.of_nat n))).
Proof.
  induction n as [|n IH]; intros attempts Hlo Hhi.
  - simpl. by rewrite Z.add_0_r.
  - change (replicate (S n) (Running (inl e)) ++ replies)
      with (Running (inl e) :: (replicate n (Running (inl e)) ++ replies)).
    change (seq 1 (S n)) with (1%nat :: seq 2 n).
    rewrite resubscribe_loop_failed. unfold add. rewrite wrap_id by int_range.
    rewrite IH by lia.
    rewrite fmap_cons. cbn [app]. f_equal.
    rewrite <- (fmap_S_seq 1 n), <- list_fmap_compose. f_equal.
    + apply list_fmap_ext. intros i k _. simpl. f_equal. lia.
    + do 3 f_equal. lia.
Qed.

(** C2, on the code: after the first, second and third failed attempt to
    resubscribe the routine sleeps 20, 40 and 80 milliseconds; no sleep of
    10 milliseconds occurs. *)
Theorem resubscribe_first_delays (subscriber : string) (q : Query)
    (e1 e2 e3 : error) (sub : Subscription) :
  sleeps (trace (resubscribe subscriber q
                   [Running (inl e1); Running (inl e2); Running (inl e3);
                    Running (inr sub)]))
  = [20 * Millisecond; 40 * Millisecond; 80 * Millisecond].
Proof. reflexivity. Qed.

(** An explicit unsubscribe ends the routine without a retry. *)
Lemma eventsRoutine_unsubscribed (subscriber : string) (q : Query) (outCap : Z)
    (replies : list BusReply) (fired : list SelectCase) :
  eventsRoutine subscriber q outCap
    (Recv_Cancelled (Some ErrUnsubscribed) replies :: fired)
  = mkEff [] Exited.
Proof. reflexivity. Qed.

End ClientProps.

(** ** The registry *)

Module RegistryProps.

Import Registry.

Lemma clients_registered (name : string) :
  is_Some (clients !! name) <-> name = "mock" \/ name = "grpc".
Proof.
  split.
  - intros [f Hf].
    destruct (decide (name = "mock")) as [|Hmock]; [by left|].
    destruct (decide (name = "grpc")) as [|Hgrpc]; [by right|].
    unfold clients in Hf.
    rewrite !lookup_insert_ne, lookup_empty in Hf by done. discriminate.
  - intros [-> | ->]; by eexists.
Qed.

Example GetClient_mock : GetClient "mock" = Returns MockDataAvailabilityLayerClient.
Proof. reflexivity. Qed.

Example GetClient_grpc : GetClient "grpc" = Returns GrpcDataAvailabilityLayerClient.
Proof. reflexivity. Qed.

(** C4, on the code: resolving a name that is not registered returns
    neither a client nor an error value, the call panics on the nil
    constructor. *)
Theorem GetClient_unregistered_panics (name : string) :
  name <> "mock" -> name <> "grpc" ->
  GetClient name = Panics "invalid memory address or nil pointer dereference".
Proof.
  intros Hmock Hgrpc. unfold GetClient.
  destruct (clients !! name) as [f|] eqn:Hf; [|reflexivity].
  destruct (proj1 (clients_registered name)) as [-> | ->]; [by eexists|done..].
Qed.

Lemma GetClient_unregistered_panics_witness :
  GetClient "celestia" = Panics "invalid memory address or nil pointer dereference".
Proof.
  apply (GetClient_unregistered_panics "celestia"); discriminate.
Defined.

End RegistryProps.
